(** * submit.py: copy a text file to the clipboard, optionally after prompt.txt

    A shallow embedding of [src/submit.py].  The script is straight-line
    I/O glue, so the embedding is a small state-and-exception monad over
    an explicit description of the host (files, platform name, installed
    commands, command line, standard output), and the program's three
    functions written in it. *)

From Stdlib Require Import String Ascii List Bool NArith ZArith Lia.
From Stdlib Require Import Strings.Byte.
Import ListNotations.

Local Open Scope string_scope.
Local Open Scope list_scope.

(** ** Python strings and the text layer of files

    A Python [str] is modelled by [string], identified with its UTF-8 byte
    sequence: the texts the program handles come from files decoded
    strictly as UTF-8 (or from string literals), so [text.encode("utf-8")]
    is the passage from [string] to [list byte], and decoding goes the
    other way once the bytes are known to be well-formed. *)

Definition encode_utf8 (text : string) : list byte :=
  list_byte_of_string text.

Definition byte_in (lo hi : N) (b : byte) : bool :=
  (lo <=? Byte.to_N b)%N && (Byte.to_N b <=? hi)%N.

(** A continuation byte, 80..BF. *)
Definition cont (b : byte) : bool := byte_in 128 191 b.

(** Well-formed UTF-8, as the strict codec accepts it: shortest forms
    only, no surrogates, nothing above U+10FFFF. *)
Fixpoint utf8_valid (data : list byte) : bool :=
  match data with
  | [] => true
  | b0 :: t0 =>
      if byte_in 0 127 b0 then utf8_valid t0
      else
        match t0 with
        | [] => false
        | b1 :: t1 =>
            if byte_in 194 223 b0 then cont b1 && utf8_valid t1
            else
              match t1 with
              | [] => false
              | b2 :: t2 =>
                  if byte_in 224 224 b0 then
                    byte_in 160 191 b1 && cont b2 && utf8_valid t2
                  else if byte_in 225 236 b0 || byte_in 238 239 b0 then
                    cont b1 && cont b2 && utf8_valid t2
                  else if byte_in 237 237 b0 then
                    byte_in 128 159 b1 && cont b2 && utf8_valid t2
                  else
                    match t2 with
                    | [] => false
                    | b3 :: t3 =>
                        if byte_in 240 240 b0 then
                          byte_in 144 191 b1 && cont b2 && cont b3
                          && utf8_valid t3
                        else if byte_in 241 243 b0 then
                          cont b1 && cont b2 && cont b3 && utf8_valid t3
                        else if byte_in 244 244 b0 then
                          byte_in 128 143 b1 && cont b2 && cont b3
                          && utf8_valid t3
                        else false
                    end
              end
        end
  end.

(** [data.decode("utf-8")], [None] standing for UnicodeDecodeError. *)
Definition decode_utf8 (data : list byte) : option string :=
  if utf8_valid data then Some (string_of_list_byte data) else None.

Definition CR : ascii := "013"%char.
Definition LF : ascii := "010"%char.

(** What a file opened in text mode with the default [newline=None] does
    to the decoded text on reading: "\r\n" and a lone "\r" become "\n". *)
Fixpoint universal_newlines (text : string) : string :=
  match text with
  | EmptyString => EmptyString
  | String c t =>
      if Ascii.eqb c CR then
        String LF
          match t with
          | String c' t' =>
              if Ascii.eqb c' LF then universal_newlines t'
              else universal_newlines t
          | EmptyString => EmptyString
          end
      else String c (universal_newlines t)
  end.

(** ** os.path (posixpath)

    The part of [posixpath] that lines 82-83 of the script call. *)

Module posixpath.

Definition sep : ascii := "/"%char.

Definition is_sep (c : ascii) : bool := Ascii.eqb c sep.

(** [s.startswith('/')] *)
Definition isabs (s : string) : bool := String.prefix "/" s.

(** [s.endswith('/')] *)
Definition endswith_sep (s : string) : bool :=
  match rev (list_ascii_of_string s) with
  | c :: _ => is_sep c
  | [] => false
  end.

(** [join(a, b)]: an absolute [b] replaces [a]; otherwise [b] is appended,
    with a separator unless [a] is empty or already ends with one. *)
Definition join (a b : string) : string :=
  if String.prefix "/" b then b
  else if (a =? "")%string || endswith_sep a then (a ++ b)%string
  else (a ++ "/" ++ b)%string.

Fixpoint dropwhile {A : Type} (f : A -> bool) (l : list A) : list A :=
  match l with
  | [] => []
  | x :: t => if f x then dropwhile f t else l
  end.

(** [dirname(p)]: [head = p[:p.rfind('/')+1]], and the trailing slashes of
    [head] are stripped unless [head] is empty or made of slashes only. *)
Definition dirname (p : string) : string :=
  let head := rev (dropwhile (fun c => negb (is_sep c))
                             (rev (list_ascii_of_string p))) in
  let head :=
    match head with
    | [] => head
    | _ :: _ =>
        if forallb is_sep head then head
        else rev (dropwhile is_sep (rev head))
    end in
  string_of_list_ascii head.

(** [s.split('/')] *)
Fixpoint split (s : string) : list string :=
  match s with
  | EmptyString => [EmptyString]
  | String c t =>
      if is_sep c then EmptyString :: split t
      else match split t with
           | comp :: rest => String c comp :: rest
           | [] => [String c EmptyString]
           end
  end.

(** One turn of the loop of [normpath]; [new_comps] is kept with its last
    element first, so that [append] is a cons and [pop] a tail. *)
Definition normpath_step (initial_slashes : nat)
    (new_comps : list string) (comp : string) : list string :=
  if (comp =? "")%string || (comp =? ".")%string then new_comps
  else if negb (comp =? "..")%string
          || (Nat.eqb initial_slashes 0
              && match new_comps with [] => true | _ => false end)
          || match new_comps with
             | last :: _ => (last =? "..")%string
             | [] => false
             end
       then comp :: new_comps
       else match new_comps with
            | _ :: t => t
            | [] => []
            end.

Fixpoint repeat_sep (n : nat) : string :=
  match n with
  | O => EmptyString
  | S k => String sep (repeat_sep k)
  end.

Definition normpath (path : string) : string :=
  if (path =? "")%string then "."
  else
    let initial_slashes :=
      if String.prefix "/" path then
        if String.prefix "//" path && negb (String.prefix "///" path)
        then 2%nat else 1%nat
      else 0%nat in
    let comps := fold_left (normpath_step initial_slashes) (split path) [] in
    let path := String.concat "/" (rev comps) in
    let path := (repeat_sep initial_slashes ++ path)%string in
    if (path =? "")%string then "." else path.

(** [abspath(path)], with the value of [os.getcwd()] made explicit. *)
Definition abspath (cwd path : string) : string :=
  if isabs path then normpath path
  else normpath (join cwd path).

End posixpath.

(** ** Exceptions *)

Inductive py_class : Type :=
| Exception
| OSError
| FileNotFoundError
| PermissionError
| RuntimeError
| ValueError
| UnicodeDecodeError
| UnicodeEncodeError.

(** [issubclass c d] for the classes above, as in Python's hierarchy. *)
Definition issubclass (c d : py_class) : bool :=
  match d, c with
  | Exception, _ => true
  | OSError, (OSError | FileNotFoundError | PermissionError) => true
  | FileNotFoundError, FileNotFoundError => true
  | PermissionError, PermissionError => true
  | RuntimeError, RuntimeError => true
  | ValueError, (ValueError | UnicodeDecodeError | UnicodeEncodeError) => true
  | UnicodeDecodeError, UnicodeDecodeError => true
  | UnicodeEncodeError, UnicodeEncodeError => true
  | _, _ => false
  end.

(** A raised exception: its class and [str(e)]. *)
Record exn : Type := mkExn { exn_class : py_class; exn_str : string }.

(** ** The host

    What the script observes of the machine it runs on.  None of it is
    changed by the script, except the clipboard, which is in [state]. *)

(** A started child process: the command line it was started with and the
    exit status it ends with once its standard input has been fed. *)
Record process : Type := mkProcess { proc_argv : list string; returncode : Z }.

(** The namespace returned by [parser.parse_args()]. *)
Record Args : Type := mkArgs { file_path : string; new : bool }.

(** What [parser.parse_args()] does with the command line of the process:
    it returns the namespace; or, on -h, writes the help text to stdout and
    exits with status 0; or, on a command line the parser rejects, writes
    the usage and then the error line to stderr and exits with status 2. *)
Inductive parse_result : Type :=
| Namespace (args : Args)
| Help (text : string)
| UsageError (usage message : string).

(** The functions of [os.path] that the script calls; [abspath] takes the
    value of [os.getcwd()] as its first argument. *)
Record PathModule : Type := mkPathModule {
  path_abspath : string -> string -> string;
  path_dirname : string -> string;
  path_join : string -> string -> string
}.

(** [os.path] on Linux and macOS. *)
Definition posixpath_module : PathModule :=
  mkPathModule posixpath.abspath posixpath.dirname posixpath.join.

Record World : Type := mkWorld {
  (** The bytes of the file at a path, as [open(path)] followed by a read
      of everything gives them, or the OSError raised (FileNotFoundError,
      PermissionError, ...). *)
  files : string -> exn + list byte;
  (** [str(e)] of the UnicodeDecodeError that the codec raises on bytes
      that are not well-formed UTF-8. *)
  codec_error : list byte -> string;
  (** [platform.system()] *)
  system : string;
  (** [subprocess.Popen(argv, stdin=PIPE, shell=...)]: the exception raised
      (FileNotFoundError when the command is not installed), or the exit
      status with which the started process will end. *)
  popen : list string -> bool -> exn + Z;
  (** [__file__] *)
  script_file : string;
  (** [os.getcwd()] *)
  getcwd : string;
  (** [os.path]: [posixpath_module] on Linux and macOS, ntpath on
      Windows. *)
  os_path : PathModule;
  (** [parser.parse_args()] on the command line of the process. *)
  command_line : parse_result;
  (** Writing a text to [sys.stdout]: the exception raised, if any
      (UnicodeEncodeError when the stream cannot encode the text, ...). *)
  stdout_write : string -> option exn;
  (** The flush of [sys.stdout] when the interpreter shuts down, given
      what was written: the exception raised, if any (the stream is a
      pipe whose reader has gone, the disk is full, ...). *)
  stdout_flush : list string -> option exn
}.

(** [open(path, "r", encoding="utf-8")] followed by [read()]: the OSError
    of the file, or the UnicodeDecodeError of the codec, or the decoded
    text with its newlines translated. *)
Definition fs (w : World) (path : string) : exn + string :=
  match files w path with
  | inl e => inl e
  | inr data =>
      match decode_utf8 data with
      | Some text => inr (universal_newlines text)
      | None => inl (mkExn UnicodeDecodeError (codec_error w data))
      end
  end.

(** ** Observable state and the monad *)

Inductive event : Type :=
| EvOpen (path : string)
| EvSpawn (argv : list string) (shell : bool)
| EvPipe (argv : list string) (input : list byte).

(** [stdout] and [stderr] hold what the script itself wrote, one entry
    per call. *)
Record state : Type := mkState {
  clipboard : list byte;
  stdout : list string;
  stderr : list string;
  trace : list event
}.

Definition log (ev : event) (s : state) : state :=
  mkState (clipboard s) (stdout s) (stderr s) (trace s ++ [ev]).

Definition put_stdout (line : string) (s : state) : state :=
  mkState (clipboard s) (stdout s ++ [line]) (stderr s) (trace s).

Definition put_stderr (line : string) (s : state) : state :=
  mkState (clipboard s) (stdout s) (stderr s ++ [line]) (trace s).

Definition set_clipboard (data : list byte) (s : state) : state :=
  mkState data (stdout s) (stderr s) (trace s).

(** How a call ends: it returns, raises an exception, or [sys.exit(code)]
    ends the process ([SystemExit] is not an [Exception], so no [except]
    clause of the script catches it). *)
Inductive outcome (A : Type) : Type :=
| Return (a : A)
| Raise (e : exn)
| Exit (code : Z).

Arguments Return {A} a.
Arguments Raise {A} e.
Arguments Exit {A} code.

Definition M (A : Type) : Type := state -> outcome A * state.

Definition ret {A : Type} (a : A) : M A := fun s => (Return a, s).

Definition bind {A B : Type} (m : M A) (k : A -> M B) : M B :=
  fun s =>
    match m s with
    | (Return a, s') => k a s'
    | (Raise e, s') => (Raise e, s')
    | (Exit c, s') => (Exit c, s')
    end.

Definition raise {A : Type} (e : exn) : M A := fun s => (Raise e, s).

Definition sys_exit {A : Type} (code : Z) : M A := fun s => (Exit code, s).

Declare Scope py_scope.
Delimit Scope py_scope with py.
Notation "x <- m ;; k" := (bind m (fun x => k))
  (at level 100, m at next level, right associativity) : py_scope.
Notation "m ;; k" := (bind m (fun _ => k))
  (at level 100, right associativity) : py_scope.
Local Open Scope py_scope.

(** [except cls as e: body] *)
Definition handler (A : Type) : Type := (py_class * (exn -> M A))%type.

(** The first clause whose class the exception is an instance of. *)
Fixpoint find_handler {A : Type} (hs : list (handler A)) (e : exn)
    : option (M A) :=
  match hs with
  | [] => None
  | (cls, h) :: rest =>
      if issubclass (exn_class e) cls then Some (h e)
      else find_handler rest e
  end.

(** [try: body  except ...: ...]; an exception no clause matches, and an
    exit, go through. *)
Definition try_except {A : Type} (body : M A) (hs : list (handler A)) : M A :=
  fun s =>
    match body s with
    | (Raise e, s') =>
        match find_handler hs e with
        | Some h => h s'
        | None => (Raise e, s')
        end
    | r => r
    end.

(** [print(line)]: the line goes to stdout, unless writing it raises. *)
Definition print (w : World) (line : string) : M unit :=
  fun s =>
    match stdout_write w line with
    | None => (Return tt, put_stdout line s)
    | Some e => (Raise e, s)
    end.

(** [print(line, file=sys.stderr)]; stderr replaces what it cannot
    encode (backslashreplace), so the call returns. *)
Definition print_stderr (line : string) : M unit :=
  fun s => (Return tt, put_stderr line s).

(** ** Primitives that touch the host *)

(** [with open(filepath, "r", encoding="utf-8") as f: f.read()] *)
Definition open_read (w : World) (filepath : string) : M string :=
  fun s =>
    match fs w filepath with
    | inl e => (Raise e, log (EvOpen filepath) s)
    | inr text => (Return text, log (EvOpen filepath) s)
    end.

(** [subprocess.Popen(argv, stdin=subprocess.PIPE, shell=shell)] *)
Definition Popen (w : World) (argv : list string) (shell : bool) : M process :=
  fun s =>
    match popen w argv shell with
    | inl e => (Raise e, log (EvSpawn argv shell) s)
    | inr rc => (Return (mkProcess argv rc), log (EvSpawn argv shell) s)
    end.

(** [process.communicate(input)]: the input is written to the child's
    standard input and the child is waited for.  The child is one of the
    clipboard commands: it replaces the clipboard by what it read when it
    ends with status 0, and leaves the clipboard alone otherwise.  The call
    returns normally in both cases, and the status stays in the process
    object. *)
Definition communicate (p : process) (input : list byte) : M unit :=
  fun s =>
    let s := log (EvPipe (proc_argv p) input) s in
    (Return tt,
     if (returncode p =? 0)%Z then set_clipboard input s else s).

(** [parser.parse_args()], lines 63-74.  The help text is written by
    argparse with OSError ignored; any other exception of the write goes
    up. *)
Definition parse_args (w : World) : M Args :=
  match command_line w with
  | Namespace args => ret args
  | Help text =>
      fun s =>
        match stdout_write w text with
        | None => (Exit 0, put_stdout text s)
        | Some e =>
            if issubclass (exn_class e) OSError then (Exit 0, s)
            else (Raise e, s)
        end
  | UsageError usage message =>
      print_stderr usage ;;
      print_stderr message ;;
      sys_exit 2
  end.

(** ** The script *)

Definition copy_to_clipboard (w : World) (text : string) : M unit :=
  let system := system w in
  try_except
    (if (system =? "Darwin")%string then
       process <- Popen w ["pbcopy"] false ;;
       communicate process (encode_utf8 text)
     else if (system =? "Linux")%string then
       try_except
         (process <- Popen w ["xclip"; "-selection"; "clipboard"] false ;;
          communicate process (encode_utf8 text))
         [(FileNotFoundError,
           fun _ =>
             process <- Popen w ["xsel"; "--clipboard"; "--input"] false ;;
             communicate process (encode_utf8 text))]
     else if (system =? "Windows")%string then
       process <- Popen w ["clip"] true ;;
       communicate process (encode_utf8 text)
     else
       raise (mkExn RuntimeError
                ("Unsupported operating system: " ++ system)%string))
    [(FileNotFoundError,
      fun e =>
        print_stderr
          ("Error: Required clipboard utility not found. " ++ exn_str e)%string ;;
        sys_exit 1);
     (Exception,
      fun e =>
        print_stderr ("Error copying to clipboard: " ++ exn_str e)%string ;;
        sys_exit 1)].

Definition read_file (w : World) (filepath : string) : M string :=
  try_except
    (open_read w filepath)
    [(FileNotFoundError,
      fun _ =>
        print_stderr ("Error: File '" ++ filepath ++ "' not found.")%string ;;
        sys_exit 1);
     (PermissionError,
      fun _ =>
        print_stderr
          ("Error: Permission denied reading '" ++ filepath ++ "'.")%string ;;
        sys_exit 1);
     (Exception,
      fun e =>
        print_stderr
          ("Error reading file '" ++ filepath ++ "': " ++ exn_str e)%string ;;
        sys_exit 1)].

(** Lines 82-83: the path of prompt.txt next to the script. *)
Definition prompt_file (w : World) : string :=
  let script_dir :=
    path_dirname (os_path w)
      (path_abspath (os_path w) (getcwd w) (script_file w)) in
  path_join (os_path w) script_dir "prompt.txt".

Definition main (w : World) : M unit :=
  args <- parse_args w ;;
  file_content <- read_file w (file_path args) ;;
  final_content <-
    (if new args then
       prompt_content <- read_file w (prompt_file w) ;;
       ret (prompt_content ++ file_content)%string
     else ret file_content) ;;
  copy_to_clipboard w final_content ;;
  if new args then
    print w
      ("Copied '" ++ file_path args ++ "' with prompt to clipboard.")%string
  else
    print w ("Copied '" ++ file_path args ++ "' to clipboard.")%string.

(** ** One run of the script

    The process starts with empty output streams and whatever the clipboard
    holds.  Its exit status is 0 when [main] returns, the argument of
    [sys.exit] when that is called, and 1 when an exception nobody caught
    ends it (the interpreter then writes the traceback of [uncaught] on
    stderr); and it is 120, whatever it would have been, when the flush of
    what stdout received fails at shutdown. *)

Record result : Type := mkResult {
  exit_status : Z;
  final : state;
  uncaught : option exn
}.

Definition initial (clip : list byte) : state := mkState clip [] [] [].

Definition finalize (w : World) (code : Z) (s : state) (e : option exn)
    : result :=
  match stdout s with
  | [] => mkResult code s e
  | _ :: _ =>
      match stdout_flush w (stdout s) with
      | None => mkResult code s e
      | Some _ => mkResult 120 s e
      end
  end.

(** The end of the process, from the way the call of [main] ended. *)
Definition finish (w : World) (r : outcome unit * state) : result :=
  match r with
  | (Return _, s) => finalize w 0 s None
  | (Exit code, s) => finalize w code s None
  | (Raise e, s) => finalize w 1 s (Some e)
  end.

(** [if __name__ == "__main__": main()] *)
Definition script (w : World) (clip : list byte) : result :=
  finish w (main w (initial clip)).

(** The host [w] with a command line that parses to [args]. *)
Definition with_args (w : World) (args : Args) : World :=
  mkWorld (files w) (codec_error w) (system w) (popen w) (script_file w)
          (getcwd w) (os_path w) (Namespace args) (stdout_write w)
          (stdout_flush w).

(** The run of the script on [w] when the command line parses to
    [args]. *)
Definition run (w : World) (args : Args) (clip : list byte) : result :=
  script (with_args w args) clip.

(** The events that are the opening of a file; a trace made of them only
    is one in which no command was started or fed. *)
Definition is_open (ev : event) : bool :=
  match ev with
  | EvOpen _ => true
  | _ => false
  end.

(** ** Sample hosts, used to run the model *)

Module Samples.

Definition not_found (what : string) : exn :=
  mkExn FileNotFoundError
        ("[Errno 2] No such file or directory: '" ++ what ++ "'")%string.

Definition files (path : string) : exn + list byte :=
  if (path =? "notes.txt")%string then inr (encode_utf8 "bonjour")
  else if (path =? "/opt/french/prompt.txt")%string
       then inr (encode_utf8 "Corrige: ")
  else inl (not_found path).

(** As [files], without prompt.txt. *)
Definition files_no_prompt (path : string) : exn + list byte :=
  if (path =? "notes.txt")%string then inr (encode_utf8 "bonjour")
  else inl (not_found path).


(** A target written on Windows, "un" CR LF "deux" CR LF, and a prompt
    with a lone CR. *)
Definition dos_notes : list byte :=
  encode_utf8 (String "u" (String "n" (String CR (String LF
    (String "d" (String "e" (String "u" (String "x"
       (String CR (String LF EmptyString)))))))))).

Definition mac_prompt : list byte :=
  encode_utf8 (String "C" (String ":" (String CR EmptyString))).

Definition files_dos (path : string) : exn + list byte :=
  if (path =? "notes.txt")%string then inr dos_notes
  else if (path =? "/opt/french/prompt.txt")%string then inr mac_prompt
  else inl (not_found path).

(** A target named "été.txt" (the name in UTF-8), as [files] otherwise. *)
Definition ete : string :=
  String "195" (String "169" (String "t"
    (String "195" (String "169" ".txt")))).

Definition files_ete (path : string) : exn + list byte :=
  if (path =? ete)%string then inr (encode_utf8 "bonjour")
  else files path.

Definition codec (data : list byte) : string :=
  "'utf-8' codec can't decode byte 0xff in position 0: invalid start byte".

(** A stdout that takes everything. *)
Definition terminal (text : string) : option exn := None.

Definition flushed (written : list string) : option exn := None.

(** A stdout whose encoding is ASCII (PYTHONIOENCODING=ascii): a text
    with a character beyond it cannot be written. *)
Definition ascii_terminal (text : string) : option exn :=
  if forallb (fun c => (nat_of_ascii c <? 128)%nat) (list_ascii_of_string text)
  then None
  else Some (mkExn UnicodeEncodeError
               "'ascii' codec can't encode character '\xe9' in position 8: ordinal not in range(128)").

(** xclip is installed and works. *)
Definition xclip_ok (argv : list string) (shell : bool) : exn + Z :=
  match argv with
  | "xclip" :: _ => inr 0%Z
  | cmd :: _ => inl (not_found cmd)
  | [] => inl (mkExn ValueError "empty command")
  end.


(** Only xsel is installed. *)
Definition xsel_only (argv : list string) (shell : bool) : exn + Z :=
  match argv with
  | "xsel" :: _ => inr 0%Z
  | cmd :: _ => inl (not_found cmd)
  | [] => inl (mkExn ValueError "empty command")
  end.

(** No clipboard command is installed. *)
Definition no_tool (argv : list string) (shell : bool) : exn + Z :=
  match argv with
  | cmd :: _ => inl (not_found cmd)
  | [] => inl (mkExn ValueError "empty command")
  end.

(** pbcopy is installed and works. *)
Definition pbcopy_ok (argv : list string) (shell : bool) : exn + Z :=
  match argv with
  | "pbcopy" :: _ => inr 0%Z
  | cmd :: _ => inl (not_found cmd)
  | [] => inl (mkExn ValueError "empty command")
  end.



(** A host with posixpath, the script at /opt/french/submit.py unless
    told otherwise, and a stdout that takes everything. *)
Definition posix_host (files : string -> exn + list byte) (system : string)
    (popen : list string -> bool -> exn + Z) (script_file getcwd : string)
    : World :=
  mkWorld files codec system popen script_file getcwd posixpath_module
          (Namespace (mkArgs "notes.txt" false)) terminal flushed.

Definition linux : World :=
  posix_host files "Linux" xclip_ok "/opt/french/submit.py" "/home/eleve".

Definition linux_no_prompt : World :=
  posix_host files_no_prompt "Linux" xclip_ok "/opt/french/submit.py"
             "/home/eleve".


Definition linux_xsel : World :=
  posix_host files "Linux" xsel_only "/opt/french/submit.py" "/home/eleve".

Definition linux_bare : World :=
  posix_host files "Linux" no_tool "/opt/french/submit.py" "/home/eleve".

(** The same installation, started from /opt as [french/./submit.py] by
    an interpreter that leaves [__file__] relative. *)
Definition linux_relative : World :=
  posix_host files "Linux" xclip_ok "french/./submit.py" "/opt".



Definition linux_dos : World :=
  posix_host files_dos "Linux" xclip_ok "/opt/french/submit.py" "/home/eleve".

(** A Linux host whose stdout is ASCII, with the target "été.txt". *)
Definition linux_ascii : World :=
  mkWorld files_ete codec "Linux" xclip_ok "/opt/french/submit.py"
          "/home/eleve" posixpath_module
          (Namespace (mkArgs ete false)) ascii_terminal flushed.

(** A Linux host whose stdout is a pipe nobody reads any more. *)
Definition linux_closed_pipe : World :=
  mkWorld files codec "Linux" xclip_ok "/opt/french/submit.py"
          "/home/eleve" posixpath_module
          (Namespace (mkArgs "notes.txt" false)) terminal
          (fun _ => Some (mkExn OSError "[Errno 32] Broken pipe")).


Definition macos : World :=
  posix_host files "Darwin" pbcopy_ok "/opt/french/submit.py" "/home/eleve".








End Samples.

(** ** Reading the script's behaviour off the host

    Notions that the statements below share.  They are read off the
    branches of [copy_to_clipboard] and [main], and the lemmas that follow
    tie each of them to what the functions do. *)

(** [main] from line 76 on: what it does with the namespace that
    [parse_args] returned. *)
Definition after_parse (w : World) (args : Args) : M unit :=
  file_content <- read_file w (file_path args) ;;
  final_content <-
    (if new args then
       prompt_content <- read_file w (prompt_file w) ;;
       ret (prompt_content ++ file_content)%string
     else ret file_content) ;;
  copy_to_clipboard w final_content ;;
  if new args then
    print w
      ("Copied '" ++ file_path args ++ "' with prompt to clipboard.")%string
  else
    print w ("Copied '" ++ file_path args ++ "' to clipboard.")%string.

(** The line that the clauses of [read_file] print for an exception. *)
Definition read_diagnostic (filepath : string) (e : exn) : string :=
  match exn_class e with
  | FileNotFoundError => ("Error: File '" ++ filepath ++ "' not found.")%string
  | PermissionError =>
      ("Error: Permission denied reading '" ++ filepath ++ "'.")%string
  | _ => ("Error reading file '" ++ filepath ++ "': " ++ exn_str e)%string
  end.

(** Every read that [main] attempts succeeds: the target and, with --new,
    prompt.txt. *)
Definition reads_ok (w : World) (args : Args) : bool :=
  match fs w (file_path args) with
  | inl _ => false
  | inr _ =>
      if new args then
        match fs w (prompt_file w) with
        | inl _ => false
        | inr _ => true
        end
      else true
  end.

(** The files that [main] opens, in order: the target, then prompt.txt
    when --new is given and the target could be read. *)
Definition opens_of (w : World) (args : Args) : list event :=
  match fs w (file_path args) with
  | inl _ => [EvOpen (file_path args)]
  | inr _ =>
      if new args then [EvOpen (file_path args); EvOpen (prompt_file w)]
      else [EvOpen (file_path args)]
  end.

Definition xclip : list string := ["xclip"; "-selection"; "clipboard"].
Definition xsel : list string := ["xsel"; "--clipboard"; "--input"].

(** [Popen] finds no such command. *)
Definition not_installed (w : World) (argv : list string) (shell : bool)
    : bool :=
  match popen w argv shell with
  | inl e => issubclass (exn_class e) FileNotFoundError
  | inr _ => false
  end.

(** The command whose start decides the copy: the platform's one, and on
    Linux xsel when xclip is not installed. *)
Definition clipboard_command (w : World) : option (list string * bool) :=
  if (system w =? "Darwin")%string then Some (["pbcopy"], false)
  else if (system w =? "Linux")%string then
    if not_installed w xclip false then Some (xsel, false)
    else Some (xclip, false)
  else if (system w =? "Windows")%string then Some (["clip"], true)
  else None.

(** The host has a working clipboard command: the one for its platform
    starts and ends with status 0. *)
Definition clipboard_ready (w : World) : bool :=
  match clipboard_command w with
  | Some (argv, shell) =>
      match popen w argv shell with
      | inr rc => (rc =? 0)%Z
      | inl _ => false
      end
  | None => false
  end.

(** The line that the clauses of [copy_to_clipboard] print for an
    exception. *)
Definition copy_diagnostic (e : exn) : string :=
  if issubclass (exn_class e) FileNotFoundError
  then ("Error: Required clipboard utility not found. " ++ exn_str e)%string
  else ("Error copying to clipboard: " ++ exn_str e)%string.

(** On Linux, the attempt at xclip that precedes a fallback to xsel. *)
Definition earlier_attempts (w : World) : list event :=
  if (system w =? "Linux")%string && not_installed w xclip false
  then [EvSpawn xclip false]
  else [].

(** The line that [main] prints once the copy has returned. *)
Definition success_line (args : Args) : string :=
  if new args then
    ("Copied '" ++ file_path args ++ "' with prompt to clipboard.")%string
  else ("Copied '" ++ file_path args ++ "' to clipboard.")%string.

(** Stdout takes the line: writing it raises nothing, and neither does
    the flush at shutdown. *)
Definition stdout_accepts (w : World) (line : string) : bool :=
  match stdout_write w line, stdout_flush w [line] with
  | None, None => true
  | _, _ => false
  end.

(** The end of a run whose copy has returned in state [s], nothing being
    on stdout yet: the success line is printed, or the exception of that
    print ends the process. *)
Definition confirmed (w : World) (args : Args) (s : state) : result :=
  match stdout_write w (success_line args) with
  | Some e => mkResult 1 s (Some e)
  | None =>
      mkResult
        match stdout_flush w [success_line args] with
        | None => 0%Z
        | Some _ => 120%Z
        end
        (put_stdout (success_line args) s) None
  end.

Definition add_events (evs : list event) (s : state) : state :=
  mkState (clipboard s) (stdout s) (stderr s) (trace s ++ evs).

(** The text that a read gives for well-formed bytes. *)
Definition text_of (data : list byte) : string :=
  universal_newlines (string_of_list_byte data).

(** The text has a carriage return. *)
Fixpoint has_cr (text : string) : bool :=
  match text with
  | EmptyString => false
  | String c t => Ascii.eqb c CR || has_cr t
  end.

(** The list of characters behind [dirname]. *)
Definition dirname_chars (l : list ascii) : list ascii :=
  let head := rev (posixpath.dropwhile (fun c => negb (posixpath.is_sep c))
                                       (rev l)) in
  match head with
  | [] => head
  | _ :: _ =>
      if forallb posixpath.is_sep head then head
      else rev (posixpath.dropwhile posixpath.is_sep (rev head))
  end.


(** The line printed on a platform that has no branch. *)
Definition unsupported_line (w : World) : string :=
  ("Error copying to clipboard: Unsupported operating system: "
   ++ system w)%string.

(** * Properties *)

(** ** Strings and paths *)


Lemma encode_utf8_inj (a b : string) :
  encode_utf8 a = encode_utf8 b -> a = b.
Proof.
  unfold encode_utf8. intros H.
  rewrite <- (string_of_list_byte_of_string a),
          <- (string_of_list_byte_of_string b).
  now rewrite H.
Qed.

(** ** The two functions that do the I/O *)

Lemma read_file_returns (w : World) (filepath text : string) (s : state) :
  fs w filepath = inr text ->
  read_file w filepath s = (Return text, log (EvOpen filepath) s).
Proof.
  intros H. unfold read_file, try_except, open_read. now rewrite H.
Qed.

Lemma read_file_exits (w : World) (filepath : string) (e : exn) (s : state) :
  fs w filepath = inl e ->
  read_file w filepath s
  = (Exit 1, put_stderr (read_diagnostic filepath e)
                        (log (EvOpen filepath) s)).
Proof.
  intros H. unfold read_file, try_except, open_read, read_diagnostic.
  rewrite H. destruct e as [[] msg]; reflexivity.
Qed.

Ltac case_system w :=
  destruct (String.eqb_spec (system w) "Darwin") as [Hsys|?];
  [rewrite Hsys in *
  |destruct (String.eqb_spec (system w) "Linux") as [Hsys|?];
   [rewrite Hsys in *
   |destruct (String.eqb_spec (system w) "Windows") as [Hsys|?];
    [rewrite Hsys in *|]]];
  cbn [String.eqb Ascii.eqb Bool.eqb andb].

Ltac run_copy :=
  unfold copy_to_clipboard, try_except, bind, Popen, communicate, raise,
    print_stderr, sys_exit, find_handler.

Ltac tidy_state :=
  cbn [returncode proc_argv];
  try match goal with |- context [(?rc =? 0)%Z] => destruct (rc =? 0)%Z end;
  unfold log, set_clipboard, put_stderr, put_stdout;
  cbn [clipboard stdout stderr trace];
  rewrite <- ?app_assoc; reflexivity.

Lemma copy_unsupported (w : World) (text : string) (s : state) :
  clipboard_command w = None ->
  copy_to_clipboard w text s
  = (Exit 1,
     put_stderr ("Error copying to clipboard: Unsupported operating system: "
                 ++ system w)%string s).
Proof.
  unfold clipboard_command. run_copy.
  case_system w; try discriminate.
  - destruct (not_installed w xclip false); discriminate.
  - reflexivity.
Qed.

Lemma copy_started (w : World) (text : string)
    (argv : list string) (shell : bool) (rc : Z) (s : state) :
  clipboard_command w = Some (argv, shell) ->
  popen w argv shell = inr rc ->
  copy_to_clipboard w text s
  = (Return tt,
     mkState (if (rc =? 0)%Z then encode_utf8 text else clipboard s)
             (stdout s) (stderr s)
             (trace s ++ earlier_attempts w
              ++ [EvSpawn argv shell; EvPipe argv (encode_utf8 text)])).
Proof.
  unfold clipboard_command, earlier_attempts, not_installed. run_copy.
  case_system w; intros Hc Hp; try discriminate.
  - injection Hc as <- <-. rewrite Hp. tidy_state.
  - fold xclip xsel in *.
    destruct (popen w xclip false) as [e|rc'] eqn:Hx.
    + destruct (issubclass (exn_class e) FileNotFoundError) eqn:Hsub;
        injection Hc as <- <-.
      * rewrite Hp. tidy_state.
      * rewrite Hx in Hp. discriminate.
    + injection Hc as <- <-. rewrite Hx in Hp. injection Hp as ->.
      tidy_state.
  - injection Hc as <- <-. rewrite Hp. tidy_state.
Qed.

Lemma copy_not_started (w : World) (text : string)
    (argv : list string) (shell : bool) (e : exn) (s : state) :
  clipboard_command w = Some (argv, shell) ->
  popen w argv shell = inl e ->
  copy_to_clipboard w text s
  = (Exit 1,
     mkState (clipboard s) (stdout s) (stderr s ++ [copy_diagnostic e])
             (trace s ++ earlier_attempts w ++ [EvSpawn argv shell])).
Proof.
  unfold clipboard_command, earlier_attempts, not_installed, copy_diagnostic.
  run_copy.
  case_system w; intros Hc Hp; try discriminate.
  - injection Hc as <- <-. rewrite Hp.
    destruct e as [[] msg]; reflexivity.
  - fold xclip xsel in *.
    destruct (popen w xclip false) as [e'|rc'] eqn:Hx.
    + destruct (issubclass (exn_class e') FileNotFoundError) eqn:Hsub;
        injection Hc as <- <-.
      * rewrite Hp.
        destruct e' as [[] msg']; try discriminate Hsub.
        destruct e as [[] msg]; cbn; tidy_state.
      * rewrite Hx in Hp. injection Hp as ->.
        destruct e as [[] msg]; try discriminate Hsub; reflexivity.
    + injection Hc as <- <-. rewrite Hx in Hp. discriminate.
  - injection Hc as <- <-. rewrite Hp.
    destruct e as [[] msg]; reflexivity.
Qed.

Lemma earlier_attempts_spawns (w : World) (ev : event) :
  In ev (earlier_attempts w) -> ev = EvSpawn xclip false.
Proof.
  unfold earlier_attempts.
  destruct ((system w =? "Linux")%string && not_installed w xclip false);
    simpl; intuition.
Qed.

(** ** [main] after [parse_args] *)

Lemma bind_bind {A B C : Type} (m : M A) (k : A -> M B) (h : B -> M C)
    (s : state) :
  bind (bind m k) h s = bind m (fun a => bind (k a) h) s.
Proof.
  unfold bind. destruct (m s) as [[a|e|c] s']; reflexivity.
Qed.

Lemma main_plain (w : World) (path f : string) (s : state) :
  fs w path = inr f ->
  after_parse w (mkArgs path false) s
  = (copy_to_clipboard w f ;; print w (success_line (mkArgs path false)))
      (add_events [EvOpen path] s).
Proof.
  intros Hf. unfold after_parse. cbn [file_path new].
  unfold bind at 1. rewrite (read_file_returns _ _ _ _ Hf).
  reflexivity.
Qed.

Lemma main_new (w : World) (path p f : string) (s : state) :
  fs w path = inr f ->
  fs w (prompt_file w) = inr p ->
  after_parse w (mkArgs path true) s
  = (copy_to_clipboard w (p ++ f)%string ;;
     print w (success_line (mkArgs path true)))
      (add_events [EvOpen path; EvOpen (prompt_file w)] s).
Proof.
  intros Hf Hp. unfold after_parse. cbn [file_path new].
  unfold bind at 1. rewrite (read_file_returns _ _ _ _ Hf).
  rewrite bind_bind. unfold bind at 1.
  rewrite (read_file_returns _ _ _ _ Hp).
  unfold ret, log, add_events. cbn [clipboard stdout stderr trace].
  now rewrite <- app_assoc.
Qed.

Lemma main_target_unreadable (w : World) (args : Args) (e : exn) (s : state) :
  fs w (file_path args) = inl e ->
  after_parse w args s
  = (Exit 1,
     put_stderr (read_diagnostic (file_path args) e)
                (add_events [EvOpen (file_path args)] s)).
Proof.
  intros Hf. unfold after_parse, bind. now rewrite (read_file_exits _ _ _ _ Hf).
Qed.

Lemma main_prompt_unreadable (w : World) (path f : string) (e : exn)
    (s : state) :
  fs w path = inr f ->
  fs w (prompt_file w) = inl e ->
  after_parse w (mkArgs path true) s
  = (Exit 1,
     put_stderr (read_diagnostic (prompt_file w) e)
                (add_events [EvOpen path; EvOpen (prompt_file w)] s)).
Proof.
  intros Hf Hp. unfold after_parse. cbn [file_path new].
  unfold bind at 1. rewrite (read_file_returns _ _ _ _ Hf).
  rewrite bind_bind. unfold bind at 1.
  rewrite (read_file_exits _ _ _ _ Hp).
  unfold put_stderr, log, add_events. cbn [clipboard stdout stderr trace].
  now rewrite <- app_assoc.
Qed.

Lemma opens_of_is_open (w : World) (args : Args) :
  forallb is_open (opens_of w args) = true.
Proof.
  unfold opens_of.
  destruct (fs w (file_path args)); [|destruct (new args)]; reflexivity.
Qed.

Lemma opens_of_only (w : World) (args : Args) (p : string) :
  In (EvOpen p) (opens_of w args) ->
  p = file_path args \/ (new args = true /\ p = prompt_file w).
Proof.
  unfold opens_of.
  destruct (fs w (file_path args)); [|destruct (new args)]; simpl;
    intros H; repeat destruct H as [H | H]; try contradiction;
    injection H as <-; auto.
Qed.

Lemma opens_of_no_pipe (w : World) (args : Args) (ev : event) :
  In ev (opens_of w args) -> is_open ev = true.
Proof.
  intros Hin. pose proof (opens_of_is_open w args) as H.
  rewrite forallb_forall in H. now apply H.
Qed.

(** When its reads succeed, [main] is the copy of some text followed by the
    success line; the text and the reads do not depend on the state. *)
Lemma main_after_reads (w : World) (args : Args) :
  reads_ok w args = true ->
  exists text,
    forall s,
      after_parse w args s
      = (copy_to_clipboard w text ;; print w (success_line args))
          (add_events (opens_of w args) s).
Proof.
  unfold reads_ok, opens_of. destruct args as [path [|]]; cbn [file_path new].
  - destruct (fs w path) as [|f] eqn:Hf; [discriminate|].
    destruct (fs w (prompt_file w)) as [|p] eqn:Hp; [discriminate|].
    intros _. exists (p ++ f)%string. intros s. now apply main_new.
  - destruct (fs w path) as [|f] eqn:Hf; [discriminate|].
    intros _. exists f. intros s. now apply main_plain.
Qed.

(** When one of them fails, [main] ends the process after the diagnostic
    of the first read that failed. *)
Lemma main_read_fails (w : World) (args : Args) :
  reads_ok w args = false ->
  exists filepath e,
    fs w filepath = inl e
    /\ (filepath = file_path args
        \/ (new args = true /\ filepath = prompt_file w))
    /\ forall s,
         after_parse w args s
         = (Exit 1,
            put_stderr (read_diagnostic filepath e)
                       (add_events (opens_of w args) s)).
Proof.
  unfold reads_ok, opens_of.
  destruct (fs w (file_path args)) as [e|f] eqn:Hf.
  - intros _. exists (file_path args), e.
    repeat split; auto. intros s. now apply main_target_unreadable.
  - destruct args as [path [|]]; cbn [file_path new] in *; [|discriminate].
    destruct (fs w (prompt_file w)) as [e|p] eqn:Hp; [|discriminate].
    intros _. exists (prompt_file w), e.
    repeat split; auto. intros s. now apply (main_prompt_unreadable w path f).
Qed.


(** ** Whole runs *)

Lemma main_parsed (w : World) (args : Args) (s : state) :
  command_line w = Namespace args ->
  main w s = after_parse w args s.
Proof.
  intros H. unfold main, parse_args. rewrite H. reflexivity.
Qed.

Lemma run_after_parse (w : World) (args : Args) (clip : list byte) :
  run w args clip = finish w (after_parse w args (initial clip)).
Proof.
  unfold run, script.
  rewrite (main_parsed (with_args w args) args) by reflexivity.
  reflexivity.
Qed.

Lemma finish_print (w : World) (args : Args) (s : state) :
  stdout s = [] ->
  finish w (print w (success_line args) s) = confirmed w args s.
Proof.
  intros Hout. unfold print, confirmed, finish, finalize.
  destruct (stdout_write w (success_line args)) as [e|].
  - now rewrite Hout.
  - unfold put_stdout. cbn [stdout]. rewrite Hout. cbn [app].
    destruct (stdout_flush w [success_line args]); reflexivity.
Qed.

(** Every run, by cases: the four ways a run can go, each with the whole
    result; the events and the text do not depend on what the clipboard
    held. *)
Lemma run_cases (w : World) (args : Args) :
  (exists filepath e,
      reads_ok w args = false
      /\ fs w filepath = inl e
      /\ (filepath = file_path args
          \/ (new args = true /\ filepath = prompt_file w))
      /\ forall clip,
           run w args clip
           = mkResult 1 (mkState clip [] [read_diagnostic filepath e]
                                 (opens_of w args))
                      None)
  \/ (exists text,
        reads_ok w args = true
        /\ ((clipboard_command w = None
             /\ forall clip,
                  run w args clip
                  = mkResult 1 (mkState clip [] [unsupported_line w]
                                        (opens_of w args))
                             None)
            \/ (exists argv shell,
                  clipboard_command w = Some (argv, shell)
                  /\ ((exists e,
                         popen w argv shell = inl e
                         /\ forall clip,
                              run w args clip
                              = mkResult 1
                                  (mkState clip [] [copy_diagnostic e]
                                     (opens_of w args ++ earlier_attempts w
                                      ++ [EvSpawn argv shell]))
                                  None)
                      \/ (exists rc,
                            popen w argv shell = inr rc
                            /\ forall clip,
                                 run w args clip
                                 = confirmed w args
                                     (mkState
                                        (if (rc =? 0)%Z
                                         then encode_utf8 text else clip)
                                        [] []
                                        (opens_of w args
                                         ++ earlier_attempts w
                                         ++ [EvSpawn argv shell;
                                             EvPipe argv
                                               (encode_utf8 text)]))))))).
Proof.
  destruct (reads_ok w args) eqn:Hreads.
  - right.
    destruct (main_after_reads _ _ Hreads) as (text & Hm).
    exists text. split; [reflexivity|].
    destruct (clipboard_command w) as [[argv shell]|] eqn:Hc.
    + right. exists argv, shell. split; [reflexivity|].
      destruct (popen w argv shell) as [e|rc] eqn:Hp.
      * left. exists e. split; [reflexivity|]. intros clip.
        rewrite run_after_parse, Hm. unfold bind.
        rewrite (copy_not_started w text _ _ _ _ Hc Hp). reflexivity.
      * right. exists rc. split; [reflexivity|]. intros clip.
        rewrite run_after_parse, Hm. unfold bind.
        rewrite (copy_started w text _ _ _ _ Hc Hp).
        now rewrite finish_print.
    + left. split; [reflexivity|]. intros clip.
      rewrite run_after_parse, Hm. unfold bind.
      rewrite (copy_unsupported _ _ _ Hc). reflexivity.
  - left.
    destruct (main_read_fails _ _ Hreads) as (fp & e & Hfp & Hwhich & Hm).
    exists fp, e. repeat split; auto.
    intros clip. rewrite run_after_parse, Hm. reflexivity.
Qed.

Ltac run_by_cases w args :=
  destruct (run_cases w args)
    as [(?fp & ?e & ?Hreads & ?Hfs & ?Hwhich & ?Hrun)
       |(?text & ?Hreads
         & [[?Hcmd ?Hrun]
           |(?argv & ?shell & ?Hcmd
             & [(?e & ?Hpopen & ?Hrun) | (?rc & ?Hpopen & ?Hrun)])])].

Lemma clipboard_ready_inv (w : World) :
  clipboard_ready w = true ->
  exists argv shell,
    clipboard_command w = Some (argv, shell)
    /\ popen w argv shell = inr 0%Z.
Proof.
  unfold clipboard_ready.
  destruct (clipboard_command w) as [[argv shell]|]; [|discriminate].
  destruct (popen w argv shell) as [|rc] eqn:Hp; [discriminate|].
  intros H. apply Z.eqb_eq in H. subst rc. now exists argv, shell.
Qed.



(** What reading gives for well-formed bytes. *)
Lemma fs_valid (w : World) (path : string) (data : list byte) :
  files w path = inr data ->
  utf8_valid data = true ->
  fs w path = inr (text_of data).
Proof.
  intros Hf Hv. unfold fs, decode_utf8. now rewrite Hf, Hv.
Qed.

Lemma universal_newlines_id (text : string) :
  has_cr text = false -> universal_newlines text = text.
Proof.
  induction text as [|c t IH]; simpl; [reflexivity|].
  intros H. apply orb_false_iff in H as [Hc Ht].
  rewrite Hc. now rewrite IH.
Qed.

Lemma has_cr_bytes (data : list byte) :
  ~ In Byte.x0d data -> has_cr (string_of_list_byte data) = false.
Proof.
  unfold string_of_list_byte.
  induction data as [|b data IH]; simpl; [reflexivity|].
  intros Hnot. apply orb_false_iff. split.
  - destruct (Ascii.eqb (ascii_of_byte b) CR) eqn:Heq; [|reflexivity].
    exfalso. apply Hnot. left.
    apply Ascii.eqb_eq in Heq.
    apply (f_equal byte_of_ascii) in Heq.
    rewrite byte_of_ascii_of_byte in Heq. now rewrite Heq.
  - apply IH. intros Hin. apply Hnot. now right.
Qed.

(** A file without carriage returns is read as it is. *)
Lemma text_of_plain (data : list byte) :
  ~ In Byte.x0d data -> encode_utf8 (text_of data) = data.
Proof.
  intros Hnot. unfold text_of, encode_utf8.
  rewrite universal_newlines_id by now apply has_cr_bytes.
  apply list_byte_of_string_of_list_byte.
Qed.

(** On a host with a working clipboard command, a run whose reads succeed
    leaves the text on the clipboard; it ends with status 0, the success
    line on stdout, when stdout takes that line. *)
Lemma run_success (w : World) (args : Args) (clip : list byte)
    (text : string) (opens : list event) :
  clipboard_ready w = true ->
  (forall s, after_parse w args s
             = (copy_to_clipboard w text ;; print w (success_line args))
                 (add_events opens s)) ->
  let r := run w args clip in
  clipboard (final r) = encode_utf8 text
  /\ stderr (final r) = []
  /\ (stdout_accepts w (success_line args) = true ->
      exit_status r = 0%Z /\ stdout (final r) = [success_line args]).
Proof.
  intros Hr Hm r. subst r.
  destruct (clipboard_ready_inv w Hr) as (argv & shell & Hc & Hp).
  rewrite run_after_parse, Hm. unfold bind.
  rewrite (copy_started w text _ _ _ _ Hc Hp).
  rewrite finish_print by reflexivity.
  unfold confirmed, stdout_accepts.
  destruct (stdout_write w (success_line args)) as [e|];
    [|destruct (stdout_flush w [success_line args])];
    cbn -[success_line]; repeat split; try discriminate; auto.
Qed.




(** C2, as stated, fails.  Without --new, a well-formed target with CR LF
    line ends is not what the clipboard ends up holding; and on a host
    whose stdout cannot encode the name of the target, the run neither
    ends with status 0 nor prints the line on stdout. *)
Lemma plain_copy_is_not_the_file_bytes :
  (let w := Samples.linux_dos in
   let r := run w (mkArgs "notes.txt" false) [] in
   (files w "notes.txt" = inr Samples.dos_notes
    /\ utf8_valid Samples.dos_notes = true
    /\ clipboard_ready w = true)
   /\ clipboard (final r) <> Samples.dos_notes)
  /\ (let w := Samples.linux_ascii in
      let r := run w (mkArgs Samples.ete false) [] in
      (files w Samples.ete = inr (encode_utf8 "bonjour")
       /\ clipboard_ready w = true)
      /\ exit_status r <> 0%Z
      /\ stdout (final r) = []).
Proof.
  cbv zeta. repeat split; try (intros H; vm_compute in H; discriminate H).
Qed.

(** C2, amended.  Without --new, when the target holds well-formed UTF-8
    ([fb] is its bytes) and the host has a working clipboard command, the
    clipboard ends up holding the text of the target (its content with
    CR LF and lone CR turned into LF), which is exactly [fb] when the
    file has no carriage return; and when stdout takes the line, the run
    ends with status 0 and stdout is the one line
    [Copied '<file_path>' to clipboard.]  With --new, a run that ends
    with status 0 has the one line
    [Copied '<file_path>' with prompt to clipboard.] on stdout. *)
Theorem plain_copies_file_and_reports :
  forall (w : World) (path : string) (clip : list byte),
    (forall fb : list byte,
        files w path = inr fb ->
        utf8_valid fb = true ->
        clipboard_ready w = true ->
        let r := run w (mkArgs path false) clip in
        clipboard (final r) = encode_utf8 (text_of fb)
        /\ (~ In Byte.x0d fb -> clipboard (final r) = fb)
        /\ (stdout_accepts w ("Copied '" ++ path ++ "' to clipboard.")%string
            = true ->
            exit_status r = 0%Z
            /\ stdout (final r)
               = [("Copied '" ++ path ++ "' to clipboard.")%string]))
    /\ (let r := run w (mkArgs path true) clip in
        exit_status r = 0%Z ->
        stdout (final r)
        = [("Copied '" ++ path ++ "' with prompt to clipboard.")%string]).
Proof.
  intros w path clip. split.
  - intros fb Hf Hv Hr r.
    destruct (run_success w (mkArgs path false) clip (text_of fb)
                [EvOpen path] Hr) as (Hclip & _ & Hexit).
    { intros s. apply main_plain. now apply fs_valid. }
    subst r. rewrite Hclip.
    split; [reflexivity|]. split.
    + intros Hn. now apply text_of_plain.
    + intros Hacc. now apply Hexit.
  - intros r. subst r.
    run_by_cases w (mkArgs path true); rewrite Hrun;
      cbn [exit_status]; try discriminate.
    unfold confirmed.
    destruct (stdout_write w (success_line (mkArgs path true)));
      cbn [exit_status]; [discriminate|].
    intros _. reflexivity.
Qed.

Lemma plain_copies_file_and_reports_witness :
  (let r := run Samples.linux (mkArgs "notes.txt" false) [] in
   clipboard (final r) = encode_utf8 "bonjour"
   /\ exit_status r = 0%Z
   /\ stdout (final r) = ["Copied 'notes.txt' to clipboard."])
  /\ (let r := run Samples.linux (mkArgs "notes.txt" true) [] in
      stdout (final r) = ["Copied 'notes.txt' with prompt to clipboard."]).
Proof.
  destruct (plain_copies_file_and_reports Samples.linux "notes.txt" [])
    as [Hplain Hnew].
  split.
  - destruct (Hplain (encode_utf8 "bonjour") eq_refl eq_refl eq_refl)
      as (_ & Hbytes & Hout).
    split.
    + apply Hbytes. intros Hin. vm_compute in Hin. intuition discriminate.
    + apply Hout. reflexivity.
  - apply Hnew. reflexivity.
Defined.

Lemma reads_fail_iff (w : World) (args : Args) :
  reads_ok w args = false <->
  (exists e, fs w (file_path args) = inl e)
  \/ (new args = true /\ exists e, fs w (prompt_file w) = inl e).
Proof.
  unfold reads_ok. split.
  - destruct (fs w (file_path args)) as [e|f]; [left; now exists e|].
    destruct (new args); [|discriminate].
    destruct (fs w (prompt_file w)) as [e|p]; [|discriminate].
    right. split; [reflexivity|now exists e].
  - intros [[e He] | [Hn [e He]]].
    + now rewrite He.
    + rewrite Hn, He. now destruct (fs w (file_path args)).
Qed.















(** What a run does to the clipboard is decided by the host and the
    arguments alone: it either stores one fixed content, or keeps what was
    there. *)
Lemma run_clipboard_shape (w : World) (args : Args) :
  exists stored : option (list byte),
    forall clip,
      clipboard (final (run w args clip))
      = match stored with
        | Some data => data
        | None => clip
        end.
Proof.
  run_by_cases w args;
    try (exists None; intros clip; rewrite Hrun; reflexivity).
  exists (if (rc =? 0)%Z then Some (encode_utf8 text) else None).
  intros clip. rewrite Hrun. unfold confirmed.
  destruct (stdout_write w (success_line args));
    destruct (rc =? 0)%Z; reflexivity.
Qed.

(** C8. A second run with the same arguments on the same host, started
    on the clipboard that the first run left, leaves that clipboard as it
    is.  And a run never extends what the clipboard held: for two starting
    contents, either both runs end with the same clipboard, or each leaves
    its clipboard untouched. *)
Theorem second_run_keeps_clipboard :
  forall (w : World) (args : Args) (clip clip' : list byte),
    let once := run w args clip in
    let twice := run w args (clipboard (final once)) in
    clipboard (final twice) = clipboard (final once)
    /\ (clipboard (final (run w args clip))
        = clipboard (final (run w args clip'))
        \/ (clipboard (final (run w args clip)) = clip
            /\ clipboard (final (run w args clip')) = clip')).
Proof.
  intros w args clip clip' once twice. subst once twice.
  destruct (run_clipboard_shape w args) as [[data|] H].
  - rewrite !H. auto.
  - rewrite !H. auto.
Qed.

(** The run on a host is the run on its command line, when that parses. *)
Lemma script_is_run (w : World) (args : Args) (clip : list byte) :
  command_line w = Namespace args ->
  script w clip = run w args clip.
Proof.
  intros H. rewrite run_after_parse. unfold script.
  now rewrite (main_parsed w args) by exact H.
Qed.

(** In a run, the opening events are those of the reads. *)
Lemma run_opens (w : World) (args : Args) (clip : list byte) (p : string) :
  In (EvOpen p) (trace (final (run w args clip))) ->
  In (EvOpen p) (opens_of w args).
Proof.
  run_by_cases w args; rewrite Hrun; try (cbn [final trace]; tauto).
  - cbn [final trace]. intros Hin.
    apply in_app_or in Hin as [Hin | Hin]; [exact Hin|].
    apply in_app_or in Hin as [Hin | [Hin | []]];
      [apply earlier_attempts_spawns in Hin|]; discriminate.
  - unfold confirmed.
    destruct (stdout_write w (success_line args)); cbn [final trace put_stdout];
      intros Hin;
      (apply in_app_or in Hin as [Hin | Hin]; [exact Hin|]);
      (apply in_app_or in Hin as [Hin | [Hin | [Hin | []]]];
       [apply earlier_attempts_spawns in Hin| |]); discriminate.
Qed.

(** C10. Without --new, a run does not depend on what the files hold at
    any path other than the target's: replacing the files by others for
    which reading the target gives the same (prompt.txt present, absent
    or changed) gives the same run, clipboard, exit status, stdout, stderr
    and trace alike; and the target is the only file ever opened. *)
Theorem plain_run_ignores_prompt :
  forall (w : World) (files' : string -> exn + list byte) (path : string)
         (clip : list byte),
    let w' := mkWorld files' (codec_error w) (system w) (popen w)
                      (script_file w) (getcwd w) (os_path w)
                      (command_line w) (stdout_write w) (stdout_flush w) in
    fs w' path = fs w path ->
    run w' (mkArgs path false) clip = run w (mkArgs path false) clip
    /\ forall p,
         In (EvOpen p) (trace (final (run w (mkArgs path false) clip))) ->
         p = path.
Proof.
  intros w files' path clip w' Hfs.
  split.
  - rewrite !run_after_parse.
    destruct (fs w path) as [e|f] eqn:Hf.
    + rewrite (main_target_unreadable w' (mkArgs path false) e) by exact Hfs.
      rewrite (main_target_unreadable w (mkArgs path false) e) by exact Hf.
      reflexivity.
    + rewrite (main_plain w' path f) by exact Hfs.
      rewrite (main_plain w path f) by exact Hf.
      reflexivity.
  - intros p Hin. apply run_opens, opens_of_only in Hin.
    destruct Hin as [-> | [Hnew _]]; [reflexivity|discriminate].
Qed.

Lemma plain_run_ignores_prompt_witness :
  run Samples.linux_no_prompt (mkArgs "notes.txt" false) []
  = run Samples.linux (mkArgs "notes.txt" false) []
  /\ ~ In (EvOpen (prompt_file Samples.linux))
          (trace (final (run Samples.linux (mkArgs "notes.txt" false) []))).
Proof.
  destruct (plain_run_ignores_prompt Samples.linux Samples.files_no_prompt
              "notes.txt" [] eq_refl) as [Hsame Honly].
  split.
  - exact Hsame.
  - intros Hin. apply Honly in Hin. discriminate Hin.
Defined.

(** ** The path of prompt.txt *)

Section Dropwhile.

Context {A : Type} (f : A -> bool).



End Dropwhile.


Lemma dirname_as_chars (p : string) :
  posixpath.dirname p
  = string_of_list_ascii (dirname_chars (list_ascii_of_string p)).
Proof. reflexivity. Qed.


Lemma forallb_rev {A : Type} (f : A -> bool) (l : list A) :
  forallb f (rev l) = forallb f l.
Proof.
  induction l as [|x l IH]; simpl; [reflexivity|].
  rewrite forallb_app, IH. simpl. rewrite andb_true_r. apply andb_comm.
Qed.




Lemma prompt_file_posix (w : World) :
  os_path w = posixpath_module ->
  prompt_file w
  = posixpath.join
      (posixpath.dirname (posixpath.abspath (getcwd w) (script_file w)))
      "prompt.txt".
Proof.
  intros H. unfold prompt_file. now rewrite H.
Qed.




(** ** The path of prompt.txt is absolute *)

Lemma isabs_inv (p : string) :
  posixpath.isabs p = true -> exists t, p = String posixpath.sep t.
Proof.
  unfold posixpath.isabs. destruct p as [|c t].
  - intros H. cbv in H. discriminate.
  - change (String.prefix "/" (String c t))
      with (if ascii_dec "/" c then String.prefix "" t else false).
    destruct (ascii_dec "/" c) as [<-|]; [|discriminate].
    intros _. now exists t.
Qed.

Lemma isabs_cons (t : string) :
  posixpath.isabs (String posixpath.sep t) = true.
Proof.
  unfold posixpath.isabs, posixpath.sep.
  change (String.prefix "/" (String "/" t))
    with (if ascii_dec "/" "/" then String.prefix "" t else false).
  destruct (ascii_dec "/" "/"); [now destruct t|congruence].
Qed.

Lemma normpath_isabs (p : string) :
  posixpath.isabs p = true -> posixpath.isabs (posixpath.normpath p) = true.
Proof.
  intros Habs. destruct (isabs_inv p Habs) as [t ->].
  unfold posixpath.normpath.
  change (String posixpath.sep t =? "")%string with false. cbv iota.
  fold (posixpath.isabs (String posixpath.sep t)). rewrite Habs.
  set (n := if _ : bool then 2%nat else 1%nat).
  assert (Hn : exists k, n = S k)
    by (subst n; match goal with |- context [if ?b then _ else _] =>
                   destruct b end; eauto).
  destruct Hn as [k ->]. cbv zeta. simpl posixpath.repeat_sep.
  simpl append. change (String posixpath.sep ?x =? "")%string with false.
  apply isabs_cons.
Qed.

Lemma join_isabs (a b : string) :
  posixpath.isabs a = true \/ posixpath.isabs b = true ->
  posixpath.isabs (posixpath.join a b) = true.
Proof.
  unfold posixpath.join. fold (posixpath.isabs b).
  destruct (posixpath.isabs b) eqn:Hb; [auto|].
  intros [Ha | Hb']; [|discriminate].
  destruct (isabs_inv a Ha) as [t ->].
  destruct ((String posixpath.sep t =? "")%string
            || posixpath.endswith_sep (String posixpath.sep t));
    simpl; apply isabs_cons.
Qed.

Lemma abspath_isabs (cwd path : string) :
  posixpath.isabs cwd = true \/ posixpath.isabs path = true ->
  posixpath.isabs (posixpath.abspath cwd path) = true.
Proof.
  intros H. unfold posixpath.abspath.
  destruct (posixpath.isabs path) eqn:Hp.
  - now apply normpath_isabs.
  - apply normpath_isabs, join_isabs.
    destruct H as [H | H]; [now left|discriminate].
Qed.

Lemma dropwhile_snoc {A : Type} (f : A -> bool) (l : list A) (x : A) :
  f x = false ->
  posixpath.dropwhile f (l ++ [x]) = posixpath.dropwhile f l ++ [x].
Proof.
  intros Hx. induction l as [|y l IH]; simpl.
  - now rewrite Hx.
  - destruct (f y); [exact IH|reflexivity].
Qed.

Lemma dropwhile_snoc_not_all {A : Type} (f : A -> bool) (l : list A) (x : A) :
  forallb f l = false ->
  posixpath.dropwhile f (l ++ [x]) = posixpath.dropwhile f l ++ [x].
Proof.
  induction l as [|y l IH]; simpl; [discriminate|].
  destruct (f y); simpl; [exact IH|reflexivity].
Qed.

Lemma dirname_chars_isabs (t : list ascii) :
  exists d, dirname_chars (posixpath.sep :: t) = posixpath.sep :: d.
Proof.
  set (m := posixpath.dropwhile (fun c => negb (posixpath.is_sep c)) (rev t)).
  assert (Hhead :
      rev (posixpath.dropwhile (fun c => negb (posixpath.is_sep c))
             (rev (posixpath.sep :: t)))
      = posixpath.sep :: rev m).
  { simpl rev at 2. rewrite dropwhile_snoc by reflexivity.
    fold m. rewrite rev_app_distr. reflexivity. }
  unfold dirname_chars. rewrite Hhead. cbv zeta iota.
  destruct (forallb posixpath.is_sep (posixpath.sep :: rev m)) eqn:Hall.
  - eexists. reflexivity.
  - assert (Hm : forallb posixpath.is_sep m = false).
    { simpl in Hall. now rewrite forallb_rev in Hall. }
    simpl rev at 2. rewrite rev_involutive.
    rewrite dropwhile_snoc_not_all by exact Hm.
    rewrite rev_app_distr. simpl. eexists. reflexivity.
Qed.

Lemma dirname_isabs (p : string) :
  posixpath.isabs p = true -> posixpath.isabs (posixpath.dirname p) = true.
Proof.
  intros Habs. destruct (isabs_inv p Habs) as [t ->].
  rewrite dirname_as_chars. simpl list_ascii_of_string.
  destruct (dirname_chars_isabs (list_ascii_of_string t)) as [d ->].
  simpl. apply isabs_cons.
Qed.

(** X12. On a host whose [os.path] is posixpath, the path of prompt.txt
    is absolute as soon as the working directory is (which [os.getcwd()]
    always is) or [__file__] is. *)
Theorem prompt_file_is_absolute :
  forall (w : World),
    os_path w = posixpath_module ->
    posixpath.isabs (getcwd w) = true
    \/ posixpath.isabs (script_file w) = true ->
    posixpath.isabs (prompt_file w) = true.
Proof.
  intros w Hposix H. rewrite (prompt_file_posix w Hposix).
  apply join_isabs. left. apply dirname_isabs, abspath_isabs. exact H.
Qed.

Lemma prompt_file_is_absolute_witness :
  posixpath.isabs (prompt_file Samples.linux_relative) = true.
Proof.
  apply (prompt_file_is_absolute Samples.linux_relative).
  - reflexivity.
  - left. reflexivity.
Defined.

(** * Further properties of the script *)

(** ** How a run can end *)




(** X3. A run in which the script printed a diagnostic on stderr has
    piped nothing to any command and leaves the clipboard as it found it;
    it ends with status 1 and nothing on stdout. *)
Theorem diagnostic_means_clipboard_untouched :
  forall (w : World) (args : Args) (clip : list byte),
    let r := run w args clip in
    stderr (final r) <> [] ->
    clipboard (final r) = clip
    /\ (forall argv input, ~ In (EvPipe argv input) (trace (final r)))
    /\ exit_status r = 1%Z
    /\ stdout (final r) = [].
Proof.
  intros w args clip r. subst r.
  assert (Hnopipe : forall argv input,
             ~ In (EvPipe argv input) (opens_of w args)).
  { intros argv input Hin. apply opens_of_no_pipe in Hin. discriminate. }
  run_by_cases w args; rewrite Hrun.
  - cbn [exit_status final clipboard trace stdout stderr]. intros _.
    repeat split. intros a i. apply Hnopipe.
  - cbn [exit_status final clipboard trace stdout stderr]. intros _.
    repeat split. intros a i. apply Hnopipe.
  - cbn [exit_status final clipboard trace stdout stderr]. intros _.
    repeat split. intros a i Hin.
    apply in_app_or in Hin as [Hin | Hin]; [now apply Hnopipe in Hin|].
    apply in_app_or in Hin as [Hin | [Hin | []]];
      [apply earlier_attempts_spawns in Hin|]; discriminate.
  - unfold confirmed.
    destruct (stdout_write w (success_line args));
      cbn [final stderr put_stdout]; intros H; now contradiction H.
Qed.

Lemma diagnostic_means_clipboard_untouched_witness :
  let r := run Samples.linux_bare (mkArgs "notes.txt" true)
               (encode_utf8 "avant") in
  clipboard (final r) = encode_utf8 "avant"
  /\ (forall argv input, ~ In (EvPipe argv input) (trace (final r)))
  /\ exit_status r = 1%Z
  /\ stdout (final r) = [].
Proof.
  apply (diagnostic_means_clipboard_untouched Samples.linux_bare
           (mkArgs "notes.txt" true) (encode_utf8 "avant")).
  discriminate.
Defined.

(** X4. A run that got past [parse_args] ends with status 0 exactly when
    every read it attempts succeeds, the clipboard command of the host
    starts, and stdout takes the success line. *)
Theorem success_iff_reads_start_and_stdout :
  forall (w : World) (args : Args) (clip : list byte),
    exit_status (run w args clip) = 0%Z
    <-> reads_ok w args = true
        /\ (exists argv shell rc,
              clipboard_command w = Some (argv, shell)
              /\ popen w argv shell = inr rc)
        /\ stdout_accepts w (success_line args) = true.
Proof.
  intros w args clip.
  run_by_cases w args; rewrite Hrun; cbn [exit_status]; split;
    try discriminate.
  - intros [H _]. rewrite H in Hreads. discriminate.
  - intros (_ & (a & sh & rc & Hc & _) & _). rewrite Hc in Hcmd.
    discriminate.
  - intros (_ & (a & sh & rc & Hc & Hp) & _). rewrite Hc in Hcmd.
    injection Hcmd as <- <-. rewrite Hp in Hpopen. discriminate.
  - unfold confirmed, stdout_accepts.
    destruct (stdout_write w (success_line args));
      [|destruct (stdout_flush w [success_line args])];
      cbn [exit_status]; try discriminate.
    intros _. split; [exact Hreads|]. split; [|reflexivity].
    now exists argv, shell, rc.
  - unfold confirmed, stdout_accepts. intros (_ & _ & Hacc).
    destruct (stdout_write w (success_line args));
      [|destruct (stdout_flush w [success_line args])];
      try discriminate. reflexivity.
Qed.

(** X5. When a run ends with status 0, its last two events are the start
    of one command and the piping of the text to that same command;
    nothing was piped before; and the clipboard holds that text or what it
    held before. *)
Theorem success_pipes_once :
  forall (w : World) (args : Args) (clip : list byte),
    let r := run w args clip in
    exit_status r = 0%Z ->
    exists before argv shell text,
      trace (final r)
      = before ++ [EvSpawn argv shell; EvPipe argv (encode_utf8 text)]
      /\ (forall a i, ~ In (EvPipe a i) before)
      /\ (clipboard (final r) = encode_utf8 text
          \/ clipboard (final r) = clip).
Proof.
  intros w args clip r. subst r.
  run_by_cases w args; rewrite Hrun;
    try (cbn [exit_status]; discriminate).
  unfold confirmed.
  destruct (stdout_write w (success_line args));
    cbn [exit_status final clipboard trace put_stdout]; [discriminate|].
  intros _. exists (opens_of w args ++ earlier_attempts w), argv, shell, text.
  split; [now rewrite app_assoc|]. split.
  - intros a i Hin. apply in_app_or in Hin as [Hin | Hin].
    + apply opens_of_no_pipe in Hin. discriminate.
    + apply earlier_attempts_spawns in Hin. discriminate.
  - destruct (rc =? 0)%Z; auto.
Qed.

Lemma success_pipes_once_witness :
  let r := run Samples.linux_xsel (mkArgs "notes.txt" false) [] in
  exists before argv shell text,
    trace (final r)
    = before ++ [EvSpawn argv shell; EvPipe argv (encode_utf8 text)]
    /\ (forall a i, ~ In (EvPipe a i) before)
    /\ (clipboard (final r) = encode_utf8 text
        \/ clipboard (final r) = []).
Proof.
  apply (success_pipes_once Samples.linux_xsel (mkArgs "notes.txt" false) []).
  reflexivity.
Defined.

(** X6. A run never looks at the clipboard: its exit status, its output
    on stdout and stderr and its trace are the same whatever the clipboard
    held at the start. *)
Theorem run_ignores_clipboard :
  forall (w : World) (args : Args) (clip clip' : list byte),
    let r := run w args clip in
    let r' := run w args clip' in
    exit_status r' = exit_status r
    /\ stdout (final r') = stdout (final r)
    /\ stderr (final r') = stderr (final r)
    /\ trace (final r') = trace (final r).
Proof.
  intros w args clip clip' r r'. subst r r'.
  run_by_cases w args; rewrite !Hrun; try (repeat split; fail).
  unfold confirmed.
  destruct (stdout_write w (success_line args)); repeat split.
Qed.

(** ** The platforms with a single command *)








(** ** What a run depends on *)







(** ** The command line *)


